(** * QGst/event.h: the typed event facade

    The header declares the wrapper class [Event], eleven subclasses of it
    (one per event type), and three macros that generate, per subclass, the
    hooks QGlib uses to cast and to box event handles.  This development
    embeds the declarations as a class table, the macros as functions, and
    the generated hook bodies as functions over the QGlib and GStreamer
    operations they call. *)

From Stdlib Require Import ZArith Lia.
From stdpp Require Import base strings list gmap.

Local Open Scope string_scope.

(** ** Event types and event classes *)

(** Modelled from the spec: the declaration of [enum QGst::EventType]
    (enums.h) is missing.  The enumerators listed are the ones event.h names:
    [QGst::Event##TYPE] for each registration at lines 275-286, and the Tag
    type of the two TODO lines (128 and 279).  [EventOther] stands for every
    enumerator event.h does not name. *)
Inductive EventType :=
  | EventFlushStart
  | EventFlushStop
  | EventEos
  | EventNewSegment
  | EventTag
  | EventBufferSize
  | EventSinkMessage
  | EventQos
  | EventSeek
  | EventNavigation
  | EventLatency
  | EventStep
  | EventOther (raw : Z).

#[global] Instance EventType_eq_dec : EqDecision EventType.
Proof. solve_decision. Defined.

(** The subclasses of [Event] declared at lines 82-227. *)
Inductive EventSubclass :=
  | FlushStartEvent
  | FlushStopEvent
  | EosEvent
  | NewSegmentEvent
  | BufferSizeEvent
  | SinkMessageEvent
  | QosEvent
  | SeekEvent
  | NavigationEvent
  | LatencyEvent
  | StepEvent.

#[global] Instance EventSubclass_eq_dec : EqDecision EventSubclass.
Proof. solve_decision. Defined.

(** The argument [TYPE] of [QGST_REGISTER_EVENT_SUBCLASS(TYPE)] that
    registers the class: [QGst::TYPE##Event] is the class. *)
Definition TYPE_of (C : EventSubclass) : string :=
  match C with
  | FlushStartEvent => "FlushStart"
  | FlushStopEvent => "FlushStop"
  | EosEvent => "Eos"
  | NewSegmentEvent => "NewSegment"
  | BufferSizeEvent => "BufferSize"
  | SinkMessageEvent => "SinkMessage"
  | QosEvent => "Qos"
  | SeekEvent => "Seek"
  | NavigationEvent => "Navigation"
  | LatencyEvent => "Latency"
  | StepEvent => "Step"
  end.

(** [EVTTYPE] of the registration of a class: [QGst::Event##TYPE]
    (line 270). *)
Definition EVTTYPE (C : EventSubclass) : EventType :=
  match C with
  | FlushStartEvent => EventFlushStart
  | FlushStopEvent => EventFlushStop
  | EosEvent => EventEos
  | NewSegmentEvent => EventNewSegment
  | BufferSizeEvent => EventBufferSize
  | SinkMessageEvent => EventSinkMessage
  | QosEvent => EventQos
  | SeekEvent => EventSeek
  | NavigationEvent => EventNavigation
  | LatencyEvent => EventLatency
  | StepEvent => EventStep
  end.

Definition all_subclasses : list EventSubclass :=
  [ FlushStartEvent; FlushStopEvent; EosEvent; NewSegmentEvent;
    BufferSizeEvent; SinkMessageEvent; QosEvent; SeekEvent;
    NavigationEvent; LatencyEvent; StepEvent ].

(** ** The declarations of event.h as a class table *)

Module Header.

Record ClassDecl := {
  cls_name : string;
  cls_base : string;
  cls_wrapper : string;          (* the QGST_WRAPPER... macro in the body *)
  cls_static : list string;      (* public static member functions *)
  cls_public : list string;      (* public member functions *)
  cls_protected : list string    (* protected member functions *)
}.

Definition Event_decl : ClassDecl :=
  {| cls_name := "Event";
     cls_base := "MiniObject";
     cls_wrapper := "QGST_WRAPPER(Event)";
     cls_static := ["create"];
     cls_public := ["source"; "timestamp"; "type"; "typeName"; "structure";
                    "structure"; "sequenceNumber"; "setSequenceNumber"; "copy"];
     cls_protected := ["ref"; "unref"] |}.

Definition subclass_decl (name : string) (accessors : list string) : ClassDecl :=
  {| cls_name := name;
     cls_base := "Event";
     cls_wrapper := "QGST_WRAPPER_DIFFERENT_C_CLASS(" +:+ name +:+ ", Event)";
     cls_static := ["create"];
     cls_public := accessors;
     cls_protected := [] |}.

(** Lines 53-227, in order. *)
Definition classes : list ClassDecl :=
  [ Event_decl;
    subclass_decl "FlushStartEvent" [];
    subclass_decl "FlushStopEvent" [];
    subclass_decl "EosEvent" [];
    subclass_decl "NewSegmentEvent"
      ["isUpdate"; "rate"; "appliedRate"; "format"; "start"; "stop"; "position"];
    subclass_decl "BufferSizeEvent" ["format"; "minSize"; "maxSize"; "isAsync"];
    subclass_decl "SinkMessageEvent" ["message"];
    subclass_decl "QosEvent" ["proportion"; "diff"; "timestamp"];
    subclass_decl "SeekEvent"
      ["rate"; "format"; "flags"; "startType"; "start"; "stopType"; "stop"];
    subclass_decl "NavigationEvent" [];
    subclass_decl "LatencyEvent" ["latency"];
    subclass_decl "StepEvent" ["format"; "amount"; "rate"; "flush"; "intermediate"] ].

Definition find_class (name : string) : option ClassDecl :=
  List.find (λ c, bool_decide (cls_name c = name)) classes.

(** The chain of base classes of [name], as far as event.h declares it:
    the last element is a class declared elsewhere. *)
Fixpoint bases (fuel : nat) (name : string) : list string :=
  match fuel with
  | O => []
  | S fuel' =>
      match find_class name with
      | Some c => cls_base c :: bases fuel' (cls_base c)
      | None => []
      end
  end.

(** A template specialization generated by the registration macros, with
    the member functions its body defines. *)
Record Specialization := {
  spec_template : string;
  spec_argument : string;
  spec_evttype : string;
  spec_members : list string
}.

(** Lines 232-256. *)
Definition QGST_EVENT_SUBCLASS_REGISTER_CONVERTERS (CLASS EVTTYPE : string)
  : list Specialization :=
  [ {| spec_template := "QGlib::Private::CanConvertTo";
       spec_argument := CLASS;
       spec_evttype := EVTTYPE;
       spec_members := ["from(void * instance)"] |};
    {| spec_template := "QGlib::Private::CanConvertFrom";
       spec_argument := CLASS +:+ "Ptr";
       spec_evttype := EVTTYPE;
       spec_members := ["to(Type t)"] |} ].

(** Lines 258-267. *)
Definition QGST_EVENT_SUBCLASS_REGISTER_VALUEIMPL (CLASSPTR EVTTYPE : string)
  : list Specialization :=
  [ {| spec_template := "QGlib::ValueImpl";
       spec_argument := CLASSPTR;
       spec_evttype := EVTTYPE;
       spec_members := ["set(ValueBase & value, const " +:+ CLASSPTR +:+ " & data)"] |} ].

(** Lines 269-271. *)
Definition QGST_REGISTER_EVENT_SUBCLASS (TYPE : string) : list Specialization :=
  QGST_EVENT_SUBCLASS_REGISTER_CONVERTERS
    ("QGst::" +:+ TYPE +:+ "Event") ("QGst::Event" +:+ TYPE)
  ++ QGST_EVENT_SUBCLASS_REGISTER_VALUEIMPL
    ("QGst::" +:+ TYPE +:+ "EventPtr") ("QGst::Event" +:+ TYPE).

(** The arguments of the invocations at lines 275-286; line 279 is a
    comment and invokes nothing. *)
Definition registrations : list string :=
  [ "FlushStart"; "FlushStop"; "Eos"; "NewSegment"; "BufferSize";
    "SinkMessage"; "Qos"; "Seek"; "Navigation"; "Latency"; "Step" ].

Definition specializations : list Specialization :=
  concat (QGST_REGISTER_EVENT_SUBCLASS <$> registrations).

Definition arguments_of (template : string) : list string :=
  spec_argument <$>
    filter (λ s, spec_template s = template) specializations.

Definition subclasses_of (base : string) : list ClassDecl :=
  filter (λ c, cls_base c = base) classes.

End Header.

(** ** The generated hooks *)

(** What the hook bodies call and event.h does not define: QGlib's [Type],
    [ValueBase] and the [ValueImpl] of [EventPtr] (generated at line 274 by a
    macro of QGlib), [RefPointer::wrap], and [Event::type()]. *)
Class Externals := {
  instance_ptr : Type;                                  (* void * *)
  QType : Type;                                         (* QGlib::Type *)
  EventPtr : Type;                                      (* QGst::EventPtr *)
  ValueBase : Type;                                     (* QGlib::ValueBase *)
  Type_fromInstance : instance_ptr → QType;
  Type_isA : QType → QType → bool;                      (* a.isA(b) *)
  GetType_Event : QType;                                (* GetType<QGst::Event>() *)
  EventPtr_wrap : instance_ptr → EventPtr;
      (* QGst::EventPtr::wrap(static_cast<GstEvent*>(instance)) *)
  Event_type : EventPtr → EventType;                    (* p->type() *)
  ValueBase_type : ValueBase → QType;
  ValueImpl_EventPtr_set : ValueBase → EventPtr → ValueBase
      (* the value after ValueImpl<QGst::EventPtr>::set(value, data) *)
}.

Section Hooks.
Context `{X : Externals}.

(** [CLASS##Ptr]: a handle on the same native event, typed by the subclass.
    Passing it where a [const EventPtr &] is expected converts it to the
    [EventPtr] on that event. *)
Record SubclassPtr (C : EventSubclass) := { upcast : EventPtr }.
#[global] Arguments upcast {C} _.

(** Lines 238-242. *)
Definition CanConvertTo_from (C : EventSubclass) (instance : instance_ptr) : bool :=
  Type_isA (Type_fromInstance instance) GetType_Event
  && bool_decide (Event_type (EventPtr_wrap instance) = EVTTYPE C).

(** Lines 250-253. *)
Definition CanConvertFrom_to (C : EventSubclass) (t : QType) : bool :=
  Type_isA GetType_Event t.

(** Lines 263-265. *)
Definition ValueImpl_set (C : EventSubclass) (value : ValueBase)
    (data : SubclassPtr C) : ValueBase :=
  ValueImpl_EventPtr_set value (upcast data).

(** The members of the generated structs; a member the struct does not
    define is [None]. *)
Record CanConvertTo_struct := {
  from_instance : option (instance_ptr → bool);
  from_Type : option (QType → bool)
}.

Record ValueImpl_struct (T : Type) := {
  member_set : option (ValueBase → T → ValueBase);
  member_get : option (ValueBase → T)
}.
#[global] Arguments member_set {T} _.
#[global] Arguments member_get {T} _.

(** Lines 236-245. *)
Definition CanConvertTo (C : EventSubclass) : CanConvertTo_struct :=
  {| from_instance := Some (CanConvertTo_from C);
     from_Type := None |}.

(** Lines 261-266. *)
Definition ValueImpl (C : EventSubclass) : ValueImpl_struct (SubclassPtr C) :=
  {| member_set := Some (ValueImpl_set C);
     member_get := None |}.

(** A use of a template member either compiles, to a function, or is
    rejected by the compiler. *)
Inductive Compiled (A : Type) :=
  | Rejected
  | Accepted (a : A).
#[global] Arguments Rejected {A}.
#[global] Arguments Accepted {A} _.

(** Storing a typed handle: the call [ValueImpl<CLASSPTR>::set(value, data)]. *)
Definition store (C : EventSubclass) (value : ValueBase) (data : SubclassPtr C)
  : Compiled ValueBase :=
  match member_set (ValueImpl C) with
  | Some set => Accepted (set value data)
  | None => Rejected
  end.

(** Modelled from the spec: [ValueBase::get] (QGlib's value.h) is missing.
    By the comments at lines 47-49 and 243-244 of event.h, [get<T>] asks
    [CanConvertTo]'s [from(Type)] whether the type held by the value converts
    to [T], and does no dynamic cast; the value itself is read by
    [ValueImpl<T>::get].  The result is [None] when [from(Type)] refuses. *)
Definition ValueBase_get (C : EventSubclass) (value : ValueBase)
  : Compiled (option (SubclassPtr C)) :=
  match from_Type (CanConvertTo C), member_get (ValueImpl C) with
  | Some from, Some get =>
      Accepted (if from (ValueBase_type value) then Some (get value) else None)
  | _, _ => Rejected
  end.

End Hooks.

(** ** The native event objects behind the handles *)

Module Native.

(** Types of the arguments and results that event.h uses and does not
    declare; their values are passed through and never computed with.
    [type_name] is the name the engine gives an event type, and the three
    [initial_...] functions are what the engine puts, in a new event, in the
    fields no constructor of event.h takes as an argument. *)
Class Types := {
  double : Type;
  Format : Type;
  SeekFlags : Type;
  SeekType : Type;
  MessagePtr : Type;
  ObjectPtr : Type;
  Structure : Type;
  QString : Type;
  type_name : EventType → QString;
  initial_timestamp : positive → Z;
  initial_seqnum : positive → Z;
  initial_source : positive → ObjectPtr
}.

Section Engine.
Context `{T : Types}.

(** [StructureBase]: a structure, or the invalid one that wraps no native
    structure. *)
Definition StructureBase : Type := option Structure.

(** [SharedStructure(NULL)]. *)
Definition SharedStructure_NULL : StructureBase := None.

(** What an event carries: the structure given to the generic constructors,
    or the arguments of a typed constructor. *)
Inductive Content :=
  | Generic (structure : StructureBase)
  | Signal
  | NewSegmentContent (update : bool) (rate appliedRate : double)
      (format : Format) (start stop position : Z)
  | BufferSizeContent (format : Format) (minSize maxSize : Z) (async : bool)
  | SinkMessageContent (msg : MessagePtr)
  | QosContent (proportion : double) (diff : Z) (timestamp : Z)
  | SeekContent (rate : double) (format : Format) (flags : SeekFlags)
      (startType : SeekType) (start : Z) (stopType : SeekType) (stop : Z)
  | LatencyContent (latency : Z)
  | StepContent (format : Format) (amount : Z) (rate : double)
      (flush intermediate : bool).

(** The native event object. *)
Record GstEvent := {
  ev_type : EventType;
  ev_timestamp : Z;
  ev_source : ObjectPtr;
  ev_seqnum : Z;
  ev_content : Content
}.

(** The native objects, by address; a handle is the address of its object,
    and two handles on one object are the same address. *)
#[local] Abbreviation heap := (gmap positive GstEvent).

Definition new_event (p : positive) (t : EventType) (c : Content) : GstEvent :=
  {| ev_type := t;
     ev_timestamp := initial_timestamp p;
     ev_source := initial_source p;
     ev_seqnum := initial_seqnum p;
     ev_content := c |}.

Definition alloc (t : EventType) (c : Content) (h : heap) : positive * heap :=
  let p := fresh (dom h) in (p, <[p := new_event p t c]> h).

(** *** class Event *)

(** Modelled from the spec: the bodies of the member functions of [Event]
    and of its subclasses (event.cpp) are missing; only their declarations
    are in event.h.  A constructor makes a new native event of the type of
    its class that carries its arguments; an accessor reads the object its
    handle points to, and has no result when the handle points to nothing or
    the object carries something else; [setSequenceNumber] writes the
    sequence number of that object. *)
Definition Event_create (type : EventType) (structure : StructureBase) (h : heap)
  : positive * heap :=
  alloc type (Generic structure) h.

(** The call with the second argument omitted (line 58). *)
Definition Event_create_default (type : EventType) (h : heap) : positive * heap :=
  Event_create type SharedStructure_NULL h.

(** Modelled from the spec: the accessors of [Event] (event.cpp is
    missing) read the field of the native event the handle points to. *)
Definition Event_type (h : heap) (p : positive) : option EventType :=
  ev_type <$> h !! p.

Definition Event_typeName (h : heap) (p : positive) : option QString :=
  type_name <$> Event_type h p.

Definition Event_timestamp (h : heap) (p : positive) : option Z :=
  ev_timestamp <$> h !! p.

Definition Event_source (h : heap) (p : positive) : option ObjectPtr :=
  ev_source <$> h !! p.

Definition Event_structure (h : heap) (p : positive) : option Content :=
  ev_content <$> h !! p.

Definition Event_sequenceNumber (h : heap) (p : positive) : option Z :=
  ev_seqnum <$> h !! p.

Definition with_seqnum (num : Z) (e : GstEvent) : GstEvent :=
  {| ev_type := ev_type e;
     ev_timestamp := ev_timestamp e;
     ev_source := ev_source e;
     ev_seqnum := num;
     ev_content := ev_content e |}.

(** Modelled from the spec: [Event::setSequenceNumber] (event.cpp is
    missing) writes the sequence number of the native event, in place, and
    nothing else; on a handle that points to nothing it has no result. *)
Definition Event_setSequenceNumber (h : heap) (p : positive) (num : Z) : option heap :=
  match h !! p with
  | Some e => Some (<[p := with_seqnum num e]> h)
  | None => None
  end.

(** *** The subclasses without accessors *)

(** Modelled from the spec: the [create] of each subclass (event.cpp is
    missing) makes a new event of the event type the class is registered
    with, carrying the arguments; each accessor of a subclass returns the
    argument of its name that the event carries. *)

Definition FlushStartEvent_create (h : heap) := alloc EventFlushStart Signal h.
Definition FlushStopEvent_create (h : heap) := alloc EventFlushStop Signal h.
Definition EosEvent_create (h : heap) := alloc EventEos Signal h.

Definition NavigationEvent_create (structure : StructureBase) (h : heap) :=
  alloc EventNavigation (Generic structure) h.

Definition NavigationEvent_create_default (h : heap) :=
  NavigationEvent_create SharedStructure_NULL h.

(** *** NewSegmentEvent *)

(** Modelled from the spec: [NewSegmentEvent::create] and the accessors of
    [NewSegmentEvent] (event.cpp is missing), as described above. *)
Definition NewSegmentEvent_create (update : bool) (rate appliedRate : double)
    (format : Format) (start stop position : Z) (h : heap) :=
  alloc EventNewSegment
    (NewSegmentContent update rate appliedRate format start stop position) h.

Definition NewSegmentEvent_isUpdate (h : heap) (p : positive) : option bool :=
  match Event_structure h p with
  | Some (NewSegmentContent update _ _ _ _ _ _) => Some update
  | _ => None
  end.

Definition NewSegmentEvent_rate (h : heap) (p : positive) : option double :=
  match Event_structure h p with
  | Some (NewSegmentContent _ rate _ _ _ _ _) => Some rate
  | _ => None
  end.

Definition NewSegmentEvent_appliedRate (h : heap) (p : positive) : option double :=
  match Event_structure h p with
  | Some (NewSegmentContent _ _ appliedRate _ _ _ _) => Some appliedRate
  | _ => None
  end.

Definition NewSegmentEvent_format (h : heap) (p : positive) : option Format :=
  match Event_structure h p with
  | Some (NewSegmentContent _ _ _ format _ _ _) => Some format
  | _ => None
  end.

Definition NewSegmentEvent_start (h : heap) (p : positive) : option Z :=
  match Event_structure h p with
  | Some (NewSegmentContent _ _ _ _ start _ _) => Some start
  | _ => None
  end.

Definition NewSegmentEvent_stop (h : heap) (p : positive) : option Z :=
  match Event_structure h p with
  | Some (NewSegmentContent _ _ _ _ _ stop _) => Some stop
  | _ => None
  end.

Definition NewSegmentEvent_position (h : heap) (p : positive) : option Z :=
  match Event_structure h p with
  | Some (NewSegmentContent _ _ _ _ _ _ position) => Some position
  | _ => None
  end.

(** *** BufferSizeEvent *)

(** Modelled from the spec: [BufferSizeEvent::create] and the accessors of
    [BufferSizeEvent] (event.cpp is missing), as described above. *)
Definition BufferSizeEvent_create (format : Format) (minSize maxSize : Z)
    (isAsync : bool) (h : heap) :=
  alloc EventBufferSize (BufferSizeContent format minSize maxSize isAsync) h.

Definition BufferSizeEvent_format (h : heap) (p : positive) : option Format :=
  match Event_structure h p with
  | Some (BufferSizeContent format _ _ _) => Some format
  | _ => None
  end.

Definition BufferSizeEvent_minSize (h : heap) (p : positive) : option Z :=
  match Event_structure h p with
  | Some (BufferSizeContent _ minSize _ _) => Some minSize
  | _ => None
  end.

Definition BufferSizeEvent_maxSize (h : heap) (p : positive) : option Z :=
  match Event_structure h p with
  | Some (BufferSizeContent _ _ maxSize _) => Some maxSize
  | _ => None
  end.

Definition BufferSizeEvent_isAsync (h : heap) (p : positive) : option bool :=
  match Event_structure h p with
  | Some (BufferSizeContent _ _ _ async) => Some async
  | _ => None
  end.

(** *** SinkMessageEvent *)

(** Modelled from the spec: [SinkMessageEvent::create] and the accessors of
    [SinkMessageEvent] (event.cpp is missing), as described above. *)
Definition SinkMessageEvent_create (msg : MessagePtr) (h : heap) :=
  alloc EventSinkMessage (SinkMessageContent msg) h.

Definition SinkMessageEvent_message (h : heap) (p : positive) : option MessagePtr :=
  match Event_structure h p with
  | Some (SinkMessageContent msg) => Some msg
  | _ => None
  end.

(** *** QosEvent; its [timestamp()] hides [Event::timestamp()] *)

(** Modelled from the spec: [QosEvent::create] and the accessors of
    [QosEvent] (event.cpp is missing), as described above. *)
Definition QosEvent_create (proportion : double) (diff timestamp : Z) (h : heap) :=
  alloc EventQos (QosContent proportion diff timestamp) h.

Definition QosEvent_proportion (h : heap) (p : positive) : option double :=
  match Event_structure h p with
  | Some (QosContent proportion _ _) => Some proportion
  | _ => None
  end.

Definition QosEvent_diff (h : heap) (p : positive) : option Z :=
  match Event_structure h p with
  | Some (QosContent _ diff _) => Some diff
  | _ => None
  end.

Definition QosEvent_timestamp (h : heap) (p : positive) : option Z :=
  match Event_structure h p with
  | Some (QosContent _ _ timestamp) => Some timestamp
  | _ => None
  end.

(** *** SeekEvent *)

(** Modelled from the spec: [SeekEvent::create] and the accessors of
    [SeekEvent] (event.cpp is missing), as described above. *)
Definition SeekEvent_create (rate : double) (format : Format) (flags : SeekFlags)
    (startType : SeekType) (start : Z) (stopType : SeekType) (stop : Z) (h : heap) :=
  alloc EventSeek (SeekContent rate format flags startType start stopType stop) h.

Definition SeekEvent_rate (h : heap) (p : positive) : option double :=
  match Event_structure h p with
  | Some (SeekContent rate _ _ _ _ _ _) => Some rate
  | _ => None
  end.

Definition SeekEvent_format (h : heap) (p : positive) : option Format :=
  match Event_structure h p with
  | Some (SeekContent _ format _ _ _ _ _) => Some format
  | _ => None
  end.

Definition SeekEvent_flags (h : heap) (p : positive) : option SeekFlags :=
  match Event_structure h p with
  | Some (SeekContent _ _ flags _ _ _ _) => Some flags
  | _ => None
  end.

Definition SeekEvent_startType (h : heap) (p : positive) : option SeekType :=
  match Event_structure h p with
  | Some (SeekContent _ _ _ startType _ _ _) => Some startType
  | _ => None
  end.

Definition SeekEvent_start (h : heap) (p : positive) : option Z :=
  match Event_structure h p with
  | Some (SeekContent _ _ _ _ start _ _) => Some start
  | _ => None
  end.

Definition SeekEvent_stopType (h : heap) (p : positive) : option SeekType :=
  match Event_structure h p with
  | Some (SeekContent _ _ _ _ _ stopType _) => Some stopType
  | _ => None
  end.

Definition SeekEvent_stop (h : heap) (p : positive) : option Z :=
  match Event_structure h p with
  | Some (SeekContent _ _ _ _ _ _ stop) => Some stop
  | _ => None
  end.

(** *** LatencyEvent *)

(** Modelled from the spec: [LatencyEvent::create] and the accessors of
    [LatencyEvent] (event.cpp is missing), as described above. *)
Definition LatencyEvent_create (latency : Z) (h : heap) :=
  alloc EventLatency (LatencyContent latency) h.

Definition LatencyEvent_latency (h : heap) (p : positive) : option Z :=
  match Event_structure h p with
  | Some (LatencyContent latency) => Some latency
  | _ => None
  end.

(** *** StepEvent *)

(** Modelled from the spec: [StepEvent::create] and the accessors of
    [StepEvent] (event.cpp is missing), as described above. *)
Definition StepEvent_create (format : Format) (amount : Z) (rate : double)
    (flush intermediate : bool) (h : heap) :=
  alloc EventStep (StepContent format amount rate flush intermediate) h.

Definition StepEvent_format (h : heap) (p : positive) : option Format :=
  match Event_structure h p with
  | Some (StepContent format _ _ _ _) => Some format
  | _ => None
  end.

Definition StepEvent_amount (h : heap) (p : positive) : option Z :=
  match Event_structure h p with
  | Some (StepContent _ amount _ _ _) => Some amount
  | _ => None
  end.

Definition StepEvent_rate (h : heap) (p : positive) : option double :=
  match Event_structure h p with
  | Some (StepContent _ _ rate _ _) => Some rate
  | _ => None
  end.

Definition StepEvent_flush (h : heap) (p : positive) : option bool :=
  match Event_structure h p with
  | Some (StepContent _ _ _ flush _) => Some flush
  | _ => None
  end.

Definition StepEvent_intermediate (h : heap) (p : positive) : option bool :=
  match Event_structure h p with
  | Some (StepContent _ _ _ _ intermediate) => Some intermediate
  | _ => None
  end.

End Engine.

Abbreviation heap := (gmap positive GstEvent).

End Native.

(** ** A small instance, to run the definitions on concrete events *)

Module Sample.

#[local] Open Scope Z_scope.

#[local] Instance types : Native.Types :=
  {| Native.double := Z;
     Native.Format := Z;
     Native.SeekFlags := Z;
     Native.SeekType := Z;
     Native.MessagePtr := positive;
     Native.ObjectPtr := option positive;
     Native.Structure := list (string * Z);
     Native.QString := string;
     Native.type_name := λ t,
       match t with EventSeek => "seek" | EventEos => "eos" | _ => "event" end;
     Native.initial_timestamp := λ _, 0;
     Native.initial_seqnum := λ p, Z.pos p;
     Native.initial_source := λ _, None |}.

(** Two events: an end-of-stream event, then a seek event. *)
Definition heap1 : Native.heap := (Native.EosEvent_create ∅).2.
Definition eos : positive := (Native.EosEvent_create ∅).1.
Definition heap2 : Native.heap := (Native.SeekEvent_create 1 3 0 1 10 1 20 heap1).2.
Definition seek : positive := (Native.SeekEvent_create 1 3 0 1 10 1 20 heap1).1.

(** The hooks' environment over [heap2]: a pointer is an address, the type
    of an instance is the list of its own name and its ancestors' names, and
    an address with no event at it stands for a buffer. *)
#[local] Instance externals : Externals :=
  {| instance_ptr := positive;
     QType := list string;
     EventPtr := positive;
     ValueBase := option positive;
     Type_fromInstance := λ p,
       match heap2 !! p with
       | Some _ => ["GstEvent"; "GstMiniObject"]
       | None => ["GstBuffer"; "GstMiniObject"]
       end;
     Type_isA := λ a b,
       match b with
       | name :: _ => bool_decide (name ∈ a)
       | [] => false
       end;
     GetType_Event := ["GstEvent"; "GstMiniObject"];
     EventPtr_wrap := λ p, p;
     Event_type := λ p, default (EventOther 0) (Native.Event_type heap2 p);
     ValueBase_type := λ _, ["GstEvent"; "GstMiniObject"];
     ValueImpl_EventPtr_set := λ _ p, Some p |}.

End Sample.

(** ** The member functions of the classes, with their signatures *)

Module Signatures.

(** A parameter or return type: [T], [const T] or [const T &]. *)
Record CType := {
  ty_const : bool;
  ty_name : string;
  ty_ref : bool
}.

Definition by_value (name : string) : CType :=
  {| ty_const := false; ty_name := name; ty_ref := false |}.
Definition const_value (name : string) : CType :=
  {| ty_const := true; ty_name := name; ty_ref := false |}.
Definition const_ref (name : string) : CType :=
  {| ty_const := true; ty_name := name; ty_ref := true |}.

#[global] Instance CType_eq_dec : EqDecision CType.
Proof. solve_decision. Defined.

Record Param := {
  par_type : CType;
  par_name : string;
  par_default : option string
}.

Definition param (t : CType) (name : string) : Param :=
  {| par_type := t; par_name := name; par_default := None |}.

#[global] Instance Param_eq_dec : EqDecision Param.
Proof. solve_decision. Defined.

Inductive Access := Public | Protected.

#[global] Instance Access_eq_dec : EqDecision Access.
Proof. solve_decision. Defined.

Record Method := {
  m_access : Access;
  m_static : bool;
  m_virtual : bool;
  m_return : CType;
  m_name : string;
  m_params : list Param;
  m_const : bool
}.

#[global] Instance Method_eq_dec : EqDecision Method.
Proof. solve_decision. Defined.

(** [static R create(params);] *)
Definition static_create (ret : string) (params : list Param) : Method :=
  {| m_access := Public; m_static := true; m_virtual := false;
     m_return := by_value ret; m_name := "create"; m_params := params;
     m_const := false |}.

(** [R name() const;] *)
Definition getter (ret : CType) (name : string) : Method :=
  {| m_access := Public; m_static := false; m_virtual := false;
     m_return := ret; m_name := name; m_params := []; m_const := true |}.

Record ClassSig := {
  cs_name : string;
  cs_base : string;
  cs_methods : list Method
}.

(** Lines 53-77. *)
Definition Event_sig : ClassSig :=
  {| cs_name := "Event";
     cs_base := "MiniObject";
     cs_methods :=
       [ static_create "EventPtr"
           [ param (by_value "EventType") "type";
             {| par_type := const_ref "StructureBase";
                par_name := "structure";
                par_default := Some "SharedStructure(NULL)" |} ];
         getter (by_value "ObjectPtr") "source";
         getter (by_value "quint64") "timestamp";
         getter (by_value "EventType") "type";
         getter (by_value "QString") "typeName";
         {| m_access := Public; m_static := false; m_virtual := false;
            m_return := by_value "SharedStructure"; m_name := "structure";
            m_params := []; m_const := false |};
         getter (const_value "SharedStructure") "structure";
         getter (by_value "quint32") "sequenceNumber";
         {| m_access := Public; m_static := false; m_virtual := false;
            m_return := by_value "void"; m_name := "setSequenceNumber";
            m_params := [param (by_value "quint32") "num"]; m_const := false |};
         getter (by_value "EventPtr") "copy";
         {| m_access := Protected; m_static := false; m_virtual := true;
            m_return := by_value "void"; m_name := "ref";
            m_params := []; m_const := false |};
         {| m_access := Protected; m_static := false; m_virtual := true;
            m_return := by_value "void"; m_name := "unref";
            m_params := []; m_const := false |} ] |}.

Definition subclass_sig (name : string) (params : list Param)
    (accessors : list Method) : ClassSig :=
  {| cs_name := name;
     cs_base := "Event";
     cs_methods := static_create (name +:+ "Ptr") params :: accessors |}.

(** Lines 82-227, in order. *)
Definition classes : list ClassSig :=
  [ Event_sig;
    subclass_sig "FlushStartEvent" [] [];
    subclass_sig "FlushStopEvent" [] [];
    subclass_sig "EosEvent" [] [];
    subclass_sig "NewSegmentEvent"
      [ param (by_value "bool") "update";
        param (by_value "double") "rate";
        param (by_value "double") "appliedRate";
        param (by_value "Format") "format";
        param (by_value "qint64") "start";
        param (by_value "qint64") "stop";
        param (by_value "qint64") "position" ]
      [ getter (by_value "bool") "isUpdate";
        getter (by_value "double") "rate";
        getter (by_value "double") "appliedRate";
        getter (by_value "Format") "format";
        getter (by_value "qint64") "start";
        getter (by_value "qint64") "stop";
        getter (by_value "qint64") "position" ];
    subclass_sig "BufferSizeEvent"
      [ param (by_value "Format") "format";
        param (by_value "qint64") "minSize";
        param (by_value "qint64") "maxSize";
        param (by_value "bool") "isAsync" ]
      [ getter (by_value "Format") "format";
        getter (by_value "qint64") "minSize";
        getter (by_value "qint64") "maxSize";
        getter (by_value "bool") "isAsync" ];
    subclass_sig "SinkMessageEvent"
      [ param (const_ref "MessagePtr") "msg" ]
      [ getter (by_value "MessagePtr") "message" ];
    subclass_sig "QosEvent"
      [ param (by_value "double") "proportion";
        param (by_value "ClockTimeDiff") "diff";
        param (by_value "ClockTime") "timestamp" ]
      [ getter (by_value "double") "proportion";
        getter (by_value "ClockTimeDiff") "diff";
        getter (by_value "ClockTime") "timestamp" ];
    subclass_sig "SeekEvent"
      [ param (by_value "double") "rate";
        param (by_value "Format") "format";
        param (by_value "SeekFlags") "flags";
        param (by_value "SeekType") "startType";
        param (by_value "qint64") "start";
        param (by_value "SeekType") "stopType";
        param (by_value "qint64") "stop" ]
      [ getter (by_value "double") "rate";
        getter (by_value "Format") "format";
        getter (by_value "SeekFlags") "flags";
        getter (by_value "SeekType") "startType";
        getter (by_value "qint64") "start";
        getter (by_value "SeekType") "stopType";
        getter (by_value "qint64") "stop" ];
    subclass_sig "NavigationEvent"
      [ {| par_type := const_ref "StructureBase";
           par_name := "structure";
           par_default := Some "SharedStructure(NULL)" |} ]
      [];
    subclass_sig "LatencyEvent"
      [ param (by_value "ClockTime") "latency" ]
      [ getter (by_value "ClockTime") "latency" ];
    subclass_sig "StepEvent"
      [ param (by_value "Format") "format";
        param (by_value "quint64") "amount";
        param (by_value "double") "rate";
        param (by_value "bool") "flush";
        param (by_value "bool") "intermediate" ]
      [ getter (by_value "Format") "format";
        getter (by_value "quint64") "amount";
        getter (by_value "double") "rate";
        getter (by_value "bool") "flush";
        getter (by_value "bool") "intermediate" ] ].

Definition statics (c : ClassSig) : list Method :=
  filter (λ m, m_static m = true) (cs_methods c).

(** The public member functions called on an object. *)
Definition members (c : ClassSig) : list Method :=
  filter (λ m, m_static m = false ∧ m_access m = Public) (cs_methods c).

Definition protected_members (c : ClassSig) : list Method :=
  filter (λ m, m_access m = Protected) (cs_methods c).

(** The class table of [Header], read off the signatures. *)
Definition to_decl (wrapper : string) (c : ClassSig) : Header.ClassDecl :=
  {| Header.cls_name := cs_name c;
     Header.cls_base := cs_base c;
     Header.cls_wrapper := wrapper;
     Header.cls_static := m_name <$> statics c;
     Header.cls_public := m_name <$> members c;
     Header.cls_protected := m_name <$> protected_members c |}.

(** The type a value of type [t] has once received: [const] and [&]
    dropped. *)
Definition decay (t : CType) : CType := by_value (ty_name t).

(** The parameters of the [create] of a class. *)
Definition create_params (c : ClassSig) : list Param :=
  mjoin (m_params <$> filter (λ m, m_name m = "create") (statics c)).

(** An accessor in the strict sense: public, not static, not virtual,
    [const], without parameters, returning by value. *)
Definition is_accessor (m : Method) : bool :=
  bool_decide (m = getter (by_value (ty_name (m_return m))) (m_name m)).

(** The parameters of [create] and the members of a class, paired in
    declaration order. *)
Definition pairing (c : ClassSig) : list (Param * Method) :=
  zip (create_params c) (members c).

(** The member functions through which an object can be changed: public,
    not static, not [const]. *)
Definition mutators : list (string * string) :=
  c ← classes;
  (λ m, (cs_name c, m_name m)) <$> filter (λ m, m_const m = false) (members c).

(** The parameters that have a default argument. *)
Definition defaults : list (string * string * string * string) :=
  c ← classes;
  m ← cs_methods c;
  p ← m_params m;
  match par_default p with
  | Some d => [(cs_name c, m_name m, par_name p, d)]
  | None => []
  end.

End Signatures.

(** ** Name lookup in a class *)

(** Whether the class declares a member of that name. *)
Definition declares (c : Header.ClassDecl) (member : string) : bool :=
  bool_decide (member ∈ (Header.cls_static c ++ Header.cls_public c
                           ++ Header.cls_protected c)%list).

(** The class whose member a use of [member] on class [name] names: the
    class itself when it declares the name, which hides the declarations of
    its bases; otherwise what the base class gives.  [None] when the search
    leaves event.h. *)
Fixpoint resolve (fuel : nat) (name member : string) : option string :=
  match fuel with
  | O => None
  | S fuel' =>
      match Header.find_class name with
      | Some c =>
          if declares c member then Some name
          else resolve fuel' (Header.cls_base c) member
      | None => None
      end
  end.

(** ** Which specializations a registration generates *)

(** A specialization is identified by its template and its argument; two
    of the same identity in one translation unit are a redefinition. *)
Definition spec_key (s : Header.Specialization) : string * string :=
  (Header.spec_template s, Header.spec_argument s).

Definition expand (TYPEs : list string) : list Header.Specialization :=
  concat (Header.QGST_REGISTER_EVENT_SUBCLASS <$> TYPEs).

(** ** Dispatch and the guard of the cast *)

(** The subclass registered with an event type, by search of the
    registrations. *)
Definition subclass_for (t : EventType) : option EventSubclass :=
  List.find (λ C, bool_decide (EVTTYPE C = t)) all_subclasses.

Section Guard.
Context `{X : Externals}.

(** The subclasses an instance converts to. *)
Definition convertible (instance : instance_ptr) : list EventSubclass :=
  filter (λ C, CanConvertTo_from C instance = true) all_subclasses.

(** Lines 240-241 with the evaluation order of [&&] written out.
    [is_GstEvent instance] tells whether the instance really is a
    [GstEvent]; on one that is not, [static_cast<GstEvent*>(instance)] gives
    a pointer that [type()] must not read, and the outcome is [None]. *)
Definition CanConvertTo_from_guarded (is_GstEvent : instance_ptr → bool)
    (C : EventSubclass) (instance : instance_ptr) : option bool :=
  if Type_isA (Type_fromInstance instance) GetType_Event then
    if is_GstEvent instance then
      Some (bool_decide (Event_type (EventPtr_wrap instance) = EVTTYPE C))
    else None
  else Some false.

(** The right operand of the [&&] alone. *)
Definition type_matches_unguarded (is_GstEvent : instance_ptr → bool)
    (C : EventSubclass) (instance : instance_ptr) : option bool :=
  if is_GstEvent instance then
    Some (bool_decide (Event_type (EventPtr_wrap instance) = EVTTYPE C))
  else None.

End Guard.

(** * Properties *)

(** ** The registration table *)

Lemma all_subclasses_complete (C : EventSubclass) : C ∈ all_subclasses.
Proof. destruct C; unfold all_subclasses; set_solver. Qed.

Lemma all_subclasses_NoDup : NoDup all_subclasses.
Proof. compute_done. Qed.

#[global] Instance EVTTYPE_inj : Inj (=) (=) EVTTYPE.
Proof. intros [] []; simpl; congruence. Qed.

Lemma EVTTYPE_not_Tag (C : EventSubclass) : EVTTYPE C ≠ EventTag.
Proof. destruct C; discriminate. Qed.

(** C4.  event.h declares exactly eleven classes that derive from [Event]:
    FlushStart, FlushStop, Eos, NewSegment, BufferSize, SinkMessage, Qos,
    Seek, Navigation, Latency and Step; each has a static [create]; the
    registration macros generate a [CanConvertTo], a [CanConvertFrom] and a
    [ValueImpl] specialization for each of the eleven and for nothing else;
    each generated [CanConvertTo] defines the hook [from] on an instance
    pointer, each [CanConvertFrom] the hook [to(Type)] and each [ValueImpl]
    the hook [set], for the handle type of its class, and these are the hook
    bodies of this development; there is no class for the Tag event type and
    none is registered. *)
Theorem family_coverage :
  (Header.cls_name <$> Header.subclasses_of "Event")
    = [ "FlushStartEvent"; "FlushStopEvent"; "EosEvent"; "NewSegmentEvent";
        "BufferSizeEvent"; "SinkMessageEvent"; "QosEvent"; "SeekEvent";
        "NavigationEvent"; "LatencyEvent"; "StepEvent" ]
  ∧ Forall (λ c, "create" ∈ Header.cls_static c) (Header.subclasses_of "Event")
  ∧ Header.arguments_of "QGlib::Private::CanConvertTo"
    = ((λ c, "QGst::" +:+ Header.cls_name c) <$> Header.subclasses_of "Event")
  ∧ Header.arguments_of "QGlib::Private::CanConvertFrom"
    = ((λ c, "QGst::" +:+ Header.cls_name c +:+ "Ptr") <$> Header.subclasses_of "Event")
  ∧ Header.arguments_of "QGlib::ValueImpl"
    = ((λ c, "QGst::" +:+ Header.cls_name c +:+ "Ptr") <$> Header.subclasses_of "Event")
  ∧ length Header.specializations = (3 * 11)%nat
  ∧ ("TagEvent" ∉ Header.cls_name <$> Header.classes)
  ∧ ("Tag" ∉ Header.registrations)
  ∧ Forall (λ s, Header.spec_evttype s ≠ "QGst::EventTag") Header.specializations
  ∧ ((λ C, TYPE_of C +:+ "Event") <$> all_subclasses)
    = (Header.cls_name <$> Header.subclasses_of "Event")
  ∧ (TYPE_of <$> all_subclasses) = Header.registrations
  ∧ NoDup all_subclasses
  ∧ (∀ C : EventSubclass, C ∈ all_subclasses)
  ∧ (∀ C : EventSubclass, EVTTYPE C ≠ EventTag)
  ∧ Header.specializations
    = (C ← all_subclasses;
       [ {| Header.spec_template := "QGlib::Private::CanConvertTo";
            Header.spec_argument := "QGst::" +:+ TYPE_of C +:+ "Event";
            Header.spec_evttype := "QGst::Event" +:+ TYPE_of C;
            Header.spec_members := ["from(void * instance)"] |};
         {| Header.spec_template := "QGlib::Private::CanConvertFrom";
            Header.spec_argument := "QGst::" +:+ TYPE_of C +:+ "EventPtr";
            Header.spec_evttype := "QGst::Event" +:+ TYPE_of C;
            Header.spec_members := ["to(Type t)"] |};
         {| Header.spec_template := "QGlib::ValueImpl";
            Header.spec_argument := "QGst::" +:+ TYPE_of C +:+ "EventPtr";
            Header.spec_evttype := "QGst::Event" +:+ TYPE_of C;
            Header.spec_members :=
              ["set(ValueBase & value, const QGst::" +:+ TYPE_of C
                 +:+ "EventPtr & data)"] |} ])
  ∧ Forall (λ s,
        (Header.spec_template s = "QGlib::Private::CanConvertTo"
         ∧ Header.spec_members s = ["from(void * instance)"])
        ∨ (Header.spec_template s = "QGlib::Private::CanConvertFrom"
           ∧ Header.spec_members s = ["to(Type t)"])
        ∨ (Header.spec_template s = "QGlib::ValueImpl"
           ∧ Header.spec_members s
             = ["set(ValueBase & value, const " +:+ Header.spec_argument s
                  +:+ " & data)"]))
      Header.specializations
  ∧ (∀ (X : Externals) (C : EventSubclass),
       from_instance (CanConvertTo C) = Some (CanConvertTo_from C)
       ∧ member_set (ValueImpl C) = Some (ValueImpl_set C)
       ∧ (∀ t : QType, CanConvertFrom_to C t = Type_isA GetType_Event t)).
Proof.
  repeat split;
    try reflexivity;
    try (exact all_subclasses_NoDup);
    try (exact all_subclasses_complete);
    try (exact EVTTYPE_not_Tag);
    try compute_done.
Qed.

(** C7.  [Event] is declared with base class [MiniObject] and declares
    [ref()] and [unref()]; every other class of event.h has base class
    [Event], so the base classes of each subclass are [Event], then
    [MiniObject]. *)
Theorem refcounted_facade :
  Header.find_class "Event" = Some Header.Event_decl
  ∧ Header.cls_base Header.Event_decl = "MiniObject"
  ∧ "ref" ∈ Header.cls_protected Header.Event_decl
  ∧ "unref" ∈ Header.cls_protected Header.Event_decl
  ∧ Forall (λ c, c = Header.Event_decl ∨ Header.cls_base c = "Event") Header.classes
  ∧ (∀ C : EventSubclass,
       Header.bases 3 (TYPE_of C +:+ "Event") = ["Event"; "MiniObject"]).
Proof.
  split; [reflexivity|].
  split; [reflexivity|].
  split; [compute_done|].
  split; [compute_done|].
  split.
  - unfold Header.classes.
    repeat (apply Forall_cons; split; [first [by left | by right]|]).
    apply Forall_nil_2.
  - intros []; reflexivity.
Qed.

(** ** The generated hooks *)

Section HookProperties.
Context `{X : Externals}.

Lemma CanConvertTo_from_true (C : EventSubclass) (p : instance_ptr) :
  CanConvertTo_from C p = true ↔
  Type_isA (Type_fromInstance p) GetType_Event = true
  ∧ Event_type (EventPtr_wrap p) = EVTTYPE C.
Proof.
  unfold CanConvertTo_from.
  rewrite andb_true_iff, bool_decide_eq_true. reflexivity.
Qed.

(** C1.  For every registered subclass [C] and every instance pointer [p],
    [CanConvertTo<C>::from(p)] is true exactly when the type of the instance
    is-a [QGst::Event] and the type of the wrapped event is the event type
    [C] is registered with, and it is false in every other case. *)
Theorem CanConvertTo_from_correct (C : EventSubclass) (p : instance_ptr) :
  (CanConvertTo_from C p = true ↔
     Type_isA (Type_fromInstance p) GetType_Event = true
     ∧ Event_type (EventPtr_wrap p) = EVTTYPE C)
  ∧ (CanConvertTo_from C p = false ↔
     ¬ (Type_isA (Type_fromInstance p) GetType_Event = true
        ∧ Event_type (EventPtr_wrap p) = EVTTYPE C)).
Proof.
  split; [apply CanConvertTo_from_true|].
  rewrite <- CanConvertTo_from_true.
  destruct (CanConvertTo_from C p); split; done.
Qed.

(** C3.  For every registered subclass [C], every value [v] and every
    handle [d] of type [C##Ptr], [ValueImpl<C##Ptr>::set(v, d)] leaves the
    value exactly as [ValueImpl<QGst::EventPtr>::set] does for the same
    event; so handles of two subclasses on one event are boxed alike. *)
Theorem ValueImpl_set_boxes_as_EventPtr (C : EventSubclass) (v : ValueBase)
    (d : SubclassPtr C) :
  ValueImpl_set C v d = ValueImpl_EventPtr_set v (upcast d)
  ∧ (∀ (C' : EventSubclass) (d' : SubclassPtr C'),
       upcast d' = upcast d → ValueImpl_set C' v d' = ValueImpl_set C v d).
Proof.
  split; [reflexivity|].
  intros C' d' Heq. unfold ValueImpl_set. by rewrite Heq.
Qed.

(** C5.  For every registered subclass [C] and every type [t],
    [CanConvertFrom<C##Ptr>::to(t)] is true exactly when
    [GetType<QGst::Event>().isA(t)], whichever subclass [C] is. *)
Theorem CanConvertFrom_to_subclass_independent (C : EventSubclass) (t : QType) :
  (CanConvertFrom_to C t = true ↔ Type_isA GetType_Event t = true)
  ∧ CanConvertFrom_to C t = Type_isA GetType_Event t
  ∧ (∀ C' : EventSubclass, CanConvertFrom_to C' t = CanConvertFrom_to C t).
Proof. repeat split; auto. Qed.

(** C8.  For every instance pointer [p] and every two distinct registered
    subclasses, [CanConvertTo<C1>::from(p)] and [CanConvertTo<C2>::from(p)]
    are not both true. *)
Theorem CanConvertTo_from_exclusive (C1 C2 : EventSubclass) (p : instance_ptr) :
  C1 ≠ C2 →
  ¬ (CanConvertTo_from C1 p = true ∧ CanConvertTo_from C2 p = true).
Proof.
  intros Hne [H1 H2].
  apply CanConvertTo_from_true in H1 as [_ H1].
  apply CanConvertTo_from_true in H2 as [_ H2].
  apply Hne, (inj EVTTYPE). congruence.
Qed.

(** C9.  For every registered subclass [C], the generated [CanConvertTo<C>]
    defines [from] on an instance pointer and no [from(Type)], and the generated
    [ValueImpl<C##Ptr>] defines [set] and no [get]: storing a typed handle
    compiles and boxes it as an [EventPtr], and [ValueBase::get] for the
    subclass is rejected by the compiler for every value. *)
Theorem subclass_store_only (C : EventSubclass) :
  from_Type (CanConvertTo C) = None
  ∧ from_instance (CanConvertTo C) = Some (CanConvertTo_from C)
  ∧ member_get (ValueImpl C) = None
  ∧ (∀ (v : ValueBase) (d : SubclassPtr C),
       store C v d = Accepted (ValueImpl_EventPtr_set v (upcast d)))
  ∧ (∀ v : ValueBase, ValueBase_get C v = Rejected).
Proof. repeat split. Qed.

End HookProperties.

(** [Sample.seek] is a seek event and not an end-of-stream event. *)
Lemma CanConvertTo_from_exclusive_witness :
  SeekEvent ≠ EosEvent
  ∧ ¬ (CanConvertTo_from (X := Sample.externals) SeekEvent Sample.seek = true
       ∧ CanConvertTo_from (X := Sample.externals) EosEvent Sample.seek = true).
Proof.
  split; [discriminate|].
  apply (CanConvertTo_from_exclusive (X := Sample.externals) SeekEvent EosEvent Sample.seek).
  discriminate.
Defined.

Example CanConvertTo_from_seek :
  CanConvertTo_from (X := Sample.externals) SeekEvent Sample.seek = true
  ∧ CanConvertTo_from (X := Sample.externals) EosEvent Sample.seek = false
  ∧ CanConvertTo_from (X := Sample.externals) EosEvent Sample.eos = true
  ∧ CanConvertTo_from (X := Sample.externals) SeekEvent 77%positive = false.
Proof. repeat split; vm_compute; reflexivity. Qed.

(** ** Constructors, accessors and the sequence number *)

Section EngineProperties.
Context `{T : Native.Types}.
Import Native.

Implicit Types (h : heap) (p q : positive) (c : Content) (t : EventType).

Lemma alloc_fresh t c h p h' : alloc t c h = (p, h') → h !! p = None.
Proof.
  unfold alloc. intros [= Hp _]. subst p.
  apply not_elem_of_dom, is_fresh.
Qed.

Lemma alloc_lookup t c h p h' :
  alloc t c h = (p, h') → h' !! p = Some (new_event p t c).
Proof. unfold alloc. intros [= Hp Hh]. subst p h'. apply lookup_insert_eq. Qed.

Lemma alloc_frame t c h p h' q e :
  alloc t c h = (p, h') → h !! q = Some e → h' !! q = Some e.
Proof.
  intros Ha Hq. pose proof (alloc_fresh _ _ _ _ _ Ha) as Hp.
  unfold alloc in Ha. injection Ha as Hp' Hh. subst h'.
  rewrite lookup_insert_ne; [done|]. rewrite Hp'. intros ->. congruence.
Qed.

Lemma alloc_type t c h p h' : alloc t c h = (p, h') → Event_type h' p = Some t.
Proof. intros Ha. unfold Event_type. by rewrite (alloc_lookup _ _ _ _ _ Ha). Qed.

Lemma alloc_structure t c h p h' :
  alloc t c h = (p, h') → Event_structure h' p = Some c.
Proof. intros Ha. unfold Event_structure. by rewrite (alloc_lookup _ _ _ _ _ Ha). Qed.

(** C2.  For every event type [type], every structure argument and every
    state of the engine, the event [Event::create] returns has [type()]
    equal to [type]; the call without the structure argument is the call
    with [SharedStructure(NULL)]. *)
Theorem Event_create_type (type : EventType) (structure : StructureBase) h :
  (let '(p, h') := Event_create type structure h in
   Event_type h' p = Some type)
  ∧ Event_create_default type h = Event_create type SharedStructure_NULL h
  ∧ (let '(p, h') := Event_create_default type h in
     Event_type h' p = Some type
     ∧ Event_structure h' p = Some (Generic SharedStructure_NULL)).
Proof.
  split; [|split; [reflexivity|]].
  - destruct (Event_create type structure h) as [p h'] eqn:E.
    exact (alloc_type _ _ _ _ _ E).
  - destruct (Event_create_default type h) as [p h'] eqn:E.
    split; [exact (alloc_type _ _ _ _ _ E) | exact (alloc_structure _ _ _ _ _ E)].
Qed.

Local Ltac created E :=
  match goal with
  | |- context [ let '(_, _) := ?call in _ ] =>
      destruct call as [? ?] eqn:E; apply alloc_structure in E
  end.

Lemma NewSegmentEvent_roundtrip update rate appliedRate format start stop position h :
  let '(p, h') :=
    NewSegmentEvent_create update rate appliedRate format start stop position h in
  NewSegmentEvent_isUpdate h' p = Some update
  ∧ NewSegmentEvent_rate h' p = Some rate
  ∧ NewSegmentEvent_appliedRate h' p = Some appliedRate
  ∧ NewSegmentEvent_format h' p = Some format
  ∧ NewSegmentEvent_start h' p = Some start
  ∧ NewSegmentEvent_stop h' p = Some stop
  ∧ NewSegmentEvent_position h' p = Some position.
Proof.
  created E.
  unfold NewSegmentEvent_isUpdate, NewSegmentEvent_rate,
    NewSegmentEvent_appliedRate, NewSegmentEvent_format,
    NewSegmentEvent_start, NewSegmentEvent_stop, NewSegmentEvent_position.
  rewrite E. repeat split.
Qed.

Lemma BufferSizeEvent_roundtrip format minSize maxSize isAsync h :
  let '(p, h') := BufferSizeEvent_create format minSize maxSize isAsync h in
  BufferSizeEvent_format h' p = Some format
  ∧ BufferSizeEvent_minSize h' p = Some minSize
  ∧ BufferSizeEvent_maxSize h' p = Some maxSize
  ∧ BufferSizeEvent_isAsync h' p = Some isAsync.
Proof.
  created E.
  unfold BufferSizeEvent_format, BufferSizeEvent_minSize,
    BufferSizeEvent_maxSize, BufferSizeEvent_isAsync.
  rewrite E. repeat split.
Qed.

Lemma SinkMessageEvent_roundtrip msg h :
  let '(p, h') := SinkMessageEvent_create msg h in
  SinkMessageEvent_message h' p = Some msg.
Proof. created E. unfold SinkMessageEvent_message. by rewrite E. Qed.

Lemma QosEvent_roundtrip proportion diff timestamp h :
  let '(p, h') := QosEvent_create proportion diff timestamp h in
  QosEvent_proportion h' p = Some proportion
  ∧ QosEvent_diff h' p = Some diff
  ∧ QosEvent_timestamp h' p = Some timestamp.
Proof.
  created E.
  unfold QosEvent_proportion, QosEvent_diff, QosEvent_timestamp.
  rewrite E. repeat split.
Qed.

Lemma SeekEvent_roundtrip rate format flags startType start stopType stop h :
  let '(p, h') := SeekEvent_create rate format flags startType start stopType stop h in
  SeekEvent_rate h' p = Some rate
  ∧ SeekEvent_format h' p = Some format
  ∧ SeekEvent_flags h' p = Some flags
  ∧ SeekEvent_startType h' p = Some startType
  ∧ SeekEvent_start h' p = Some start
  ∧ SeekEvent_stopType h' p = Some stopType
  ∧ SeekEvent_stop h' p = Some stop.
Proof.
  created E.
  unfold SeekEvent_rate, SeekEvent_format, SeekEvent_flags, SeekEvent_startType,
    SeekEvent_start, SeekEvent_stopType, SeekEvent_stop.
  rewrite E. repeat split.
Qed.

Lemma LatencyEvent_roundtrip latency h :
  let '(p, h') := LatencyEvent_create latency h in
  LatencyEvent_latency h' p = Some latency.
Proof. created E. unfold LatencyEvent_latency. by rewrite E. Qed.

Lemma StepEvent_roundtrip format amount rate flush intermediate h :
  let '(p, h') := StepEvent_create format amount rate flush intermediate h in
  StepEvent_format h' p = Some format
  ∧ StepEvent_amount h' p = Some amount
  ∧ StepEvent_rate h' p = Some rate
  ∧ StepEvent_flush h' p = Some flush
  ∧ StepEvent_intermediate h' p = Some intermediate.
Proof.
  created E.
  unfold StepEvent_format, StepEvent_amount, StepEvent_rate, StepEvent_flush,
    StepEvent_intermediate.
  rewrite E. repeat split.
Qed.

(** C6.  For each subclass whose [create] takes data arguments
    (NewSegment, BufferSize, SinkMessage, Qos, Seek, Latency, Step), for
    every tuple of arguments and every state of the engine, each accessor the
    class declares returns, on the event [create] returned, the argument of
    the same name; for [NavigationEvent], which declares no accessor, the
    inherited [structure()] is the structure passed. *)
Theorem accessors_return_create_arguments h :
  (∀ update rate appliedRate format start stop position,
     let '(p, h') :=
       NewSegmentEvent_create update rate appliedRate format start stop position h in
     NewSegmentEvent_isUpdate h' p = Some update
     ∧ NewSegmentEvent_rate h' p = Some rate
     ∧ NewSegmentEvent_appliedRate h' p = Some appliedRate
     ∧ NewSegmentEvent_format h' p = Some format
     ∧ NewSegmentEvent_start h' p = Some start
     ∧ NewSegmentEvent_stop h' p = Some stop
     ∧ NewSegmentEvent_position h' p = Some position)
  ∧ (∀ format minSize maxSize isAsync,
       let '(p, h') := BufferSizeEvent_create format minSize maxSize isAsync h in
       BufferSizeEvent_format h' p = Some format
       ∧ BufferSizeEvent_minSize h' p = Some minSize
       ∧ BufferSizeEvent_maxSize h' p = Some maxSize
       ∧ BufferSizeEvent_isAsync h' p = Some isAsync)
  ∧ (∀ msg,
       let '(p, h') := SinkMessageEvent_create msg h in
       SinkMessageEvent_message h' p = Some msg)
  ∧ (∀ proportion diff timestamp,
       let '(p, h') := QosEvent_create proportion diff timestamp h in
       QosEvent_proportion h' p = Some proportion
       ∧ QosEvent_diff h' p = Some diff
       ∧ QosEvent_timestamp h' p = Some timestamp)
  ∧ (∀ rate format flags startType start stopType stop,
       let '(p, h') :=
         SeekEvent_create rate format flags startType start stopType stop h in
       SeekEvent_rate h' p = Some rate
       ∧ SeekEvent_format h' p = Some format
       ∧ SeekEvent_flags h' p = Some flags
       ∧ SeekEvent_startType h' p = Some startType
       ∧ SeekEvent_start h' p = Some start
       ∧ SeekEvent_stopType h' p = Some stopType
       ∧ SeekEvent_stop h' p = Some stop)
  ∧ (∀ latency,
       let '(p, h') := LatencyEvent_create latency h in
       LatencyEvent_latency h' p = Some latency)
  ∧ (∀ format amount rate flush intermediate,
       let '(p, h') := StepEvent_create format amount rate flush intermediate h in
       StepEvent_format h' p = Some format
       ∧ StepEvent_amount h' p = Some amount
       ∧ StepEvent_rate h' p = Some rate
       ∧ StepEvent_flush h' p = Some flush
       ∧ StepEvent_intermediate h' p = Some intermediate)
  ∧ (∀ structure,
       let '(p, h') := NavigationEvent_create structure h in
       Event_structure h' p = Some (Generic structure)).
Proof.
  split; [intros; apply NewSegmentEvent_roundtrip|].
  split; [intros; apply BufferSizeEvent_roundtrip|].
  split; [intros; apply SinkMessageEvent_roundtrip|].
  split; [intros; apply QosEvent_roundtrip|].
  split; [intros; apply SeekEvent_roundtrip|].
  split; [intros; apply LatencyEvent_roundtrip|].
  split; [intros; apply StepEvent_roundtrip|].
  intros structure. created E. exact E.
Qed.

Lemma setSequenceNumber_lookup h p e num :
  h !! p = Some e →
  Event_setSequenceNumber h p num = Some (<[p := with_seqnum num e]> h).
Proof. intros He. unfold Event_setSequenceNumber. by rewrite He. Qed.

(** C10.  For every event (a handle [p] on an object of the engine) and
    every number [num], [setSequenceNumber(num)] returns, and afterwards
    [sequenceNumber()] is [num] while [type()], [typeName()], [timestamp()]
    and [structure()] of the event are what they were; so is [source()],
    and so is every other object of the engine. *)
Theorem setSequenceNumber_frame h p num :
  is_Some (h !! p) →
  ∃ h', Event_setSequenceNumber h p num = Some h'
    ∧ Event_sequenceNumber h' p = Some num
    ∧ Event_type h' p = Event_type h p
    ∧ Event_typeName h' p = Event_typeName h p
    ∧ Event_timestamp h' p = Event_timestamp h p
    ∧ Event_structure h' p = Event_structure h p
    ∧ Event_source h' p = Event_source h p
    ∧ (∀ q, q ≠ p → h' !! q = h !! q).
Proof.
  intros [e He]. eexists. split; [by apply setSequenceNumber_lookup|].
  unfold Event_sequenceNumber, Event_typeName, Event_type, Event_timestamp,
    Event_structure, Event_source.
  rewrite lookup_insert_eq, He. simpl.
  repeat split.
  intros q Hq. by rewrite lookup_insert_ne.
Qed.

End EngineProperties.

(** The seek event of [Sample.heap2] gets sequence number 7. *)
Lemma setSequenceNumber_frame_witness :
  is_Some (Sample.heap2 !! Sample.seek)
  ∧ ∃ h', Native.Event_setSequenceNumber Sample.heap2 Sample.seek 7 = Some h'
      ∧ Native.Event_sequenceNumber h' Sample.seek = Some 7%Z
      ∧ Native.Event_type h' Sample.seek = Some EventSeek.
Proof.
  assert (Hs : is_Some (Sample.heap2 !! Sample.seek)).
  { vm_compute. eexists. reflexivity. }
  split; [exact Hs|].
  destruct (setSequenceNumber_frame (T := Sample.types)
              Sample.heap2 Sample.seek 7 Hs)
    as (h' & Hset & Hnum & Htype & _).
  exists h'. split; [exact Hset|]. split; [exact Hnum|].
  rewrite Htype. vm_compute. reflexivity.
Defined.

Example sample_events :
  Native.Event_type Sample.heap2 Sample.eos = Some EventEos
  ∧ Native.Event_type Sample.heap2 Sample.seek = Some EventSeek
  ∧ Native.SeekEvent_start Sample.heap2 Sample.seek = Some 10%Z
  ∧ Native.SeekEvent_stop Sample.heap2 Sample.seek = Some 20%Z
  ∧ Native.SeekEvent_stop Sample.heap2 Sample.eos = None
  ∧ Native.Event_sequenceNumber Sample.heap2 Sample.seek = Some 2%Z
  ∧ (Native.Event_setSequenceNumber Sample.heap2 Sample.seek 7
       ≫= λ h', Native.Event_sequenceNumber h' Sample.seek) = Some 7%Z
  ∧ (Native.Event_setSequenceNumber Sample.heap2 Sample.seek 7
       ≫= λ h', Native.Event_sequenceNumber h' Sample.eos) = Some 1%Z
  ∧ Native.Event_setSequenceNumber Sample.heap2 9%positive 7 = None.
Proof. repeat split; vm_compute; reflexivity. Qed.

(** ** The expansion of the registration macros *)

Lemma str_app_assoc (a b c : string) : (a +:+ b) +:+ c = a +:+ (b +:+ c).
Proof.
  induction a as [|x a IH]; [reflexivity|].
  change (String x ((a +:+ b) +:+ c) = String x (a +:+ (b +:+ c))).
  by rewrite IH.
Qed.
Lemma str_app_list (a b : string) :
  String.list_ascii_of_string (a +:+ b)
  = (String.list_ascii_of_string a ++ String.list_ascii_of_string b)%list.
Proof.
  induction a as [|x a IH]; [reflexivity|].
  change (x :: String.list_ascii_of_string (a +:+ b)
          = x :: (String.list_ascii_of_string a ++ String.list_ascii_of_string b)%list).
  by rewrite IH.
Qed.
Lemma str_app_inv_tail (a b c : string) : a +:+ c = b +:+ c → a = b.
Proof.
  intros H. apply (f_equal String.list_ascii_of_string) in H.
  rewrite !str_app_list in H. apply app_inv_tail in H.
  apply (f_equal String.string_of_list_ascii) in H.
  by rewrite !String.string_of_list_ascii_of_string in H.
Qed.

Lemma str_app_inv_head (a b c : string) : c +:+ a = c +:+ b → a = b.
Proof.
  intros H. apply (f_equal String.list_ascii_of_string) in H.
  rewrite !str_app_list in H. apply app_inv_head in H.
  apply (f_equal String.string_of_list_ascii) in H.
  by rewrite !String.string_of_list_ascii_of_string in H.
Qed.

Lemma class_name_inj (T1 T2 : string) :
  "QGst::" +:+ T1 +:+ "Event" = "QGst::" +:+ T2 +:+ "Event" → T1 = T2.
Proof. intros H%str_app_inv_head. by apply str_app_inv_tail in H. Qed.

Lemma pointer_name (TYPE : string) :
  ("QGst::" +:+ TYPE +:+ "Event") +:+ "Ptr" = "QGst::" +:+ TYPE +:+ "EventPtr".
Proof. by rewrite !str_app_assoc. Qed.

(** X1.  For every [TYPE], [QGST_REGISTER_EVENT_SUBCLASS(TYPE)] generates three
    specializations and no more: [CanConvertTo] of the class
    [QGst::TYPE##Event], and [CanConvertFrom] and [ValueImpl] of one and the
    same handle type [QGst::TYPE##EventPtr], although the first macro pastes
    [Ptr] to the class name and the second one receives the pasted name; all
    three for the event type [QGst::Event##TYPE]. *)
Theorem registration_expansion (TYPE : string) :
  ((λ s, (Header.spec_template s, Header.spec_argument s, Header.spec_evttype s))
     <$> Header.QGST_REGISTER_EVENT_SUBCLASS TYPE)
  = [ ("QGlib::Private::CanConvertTo",
       "QGst::" +:+ TYPE +:+ "Event", "QGst::Event" +:+ TYPE);
      ("QGlib::Private::CanConvertFrom",
       "QGst::" +:+ TYPE +:+ "EventPtr", "QGst::Event" +:+ TYPE);
      ("QGlib::ValueImpl",
       "QGst::" +:+ TYPE +:+ "EventPtr", "QGst::Event" +:+ TYPE) ].
Proof.
  unfold Header.QGST_REGISTER_EVENT_SUBCLASS,
    Header.QGST_EVENT_SUBCLASS_REGISTER_CONVERTERS,
    Header.QGST_EVENT_SUBCLASS_REGISTER_VALUEIMPL.
  cbn [fmap list_fmap app Header.spec_template Header.spec_argument
       Header.spec_evttype].
  by rewrite pointer_name.
Qed.

Lemma registration_keys (TYPE : string) :
  (spec_key <$> Header.QGST_REGISTER_EVENT_SUBCLASS TYPE)
  = [ ("QGlib::Private::CanConvertTo", "QGst::" +:+ TYPE +:+ "Event");
      ("QGlib::Private::CanConvertFrom", "QGst::" +:+ TYPE +:+ "EventPtr");
      ("QGlib::ValueImpl", "QGst::" +:+ TYPE +:+ "EventPtr") ].
Proof.
  unfold Header.QGST_REGISTER_EVENT_SUBCLASS,
    Header.QGST_EVENT_SUBCLASS_REGISTER_CONVERTERS,
    Header.QGST_EVENT_SUBCLASS_REGISTER_VALUEIMPL, spec_key.
  cbn [fmap list_fmap app Header.spec_template Header.spec_argument].
  by rewrite pointer_name.
Qed.

Lemma pointer_name_inj (T1 T2 : string) :
  "QGst::" +:+ T1 +:+ "EventPtr" = "QGst::" +:+ T2 +:+ "EventPtr" → T1 = T2.
Proof. intros H%str_app_inv_head. by apply str_app_inv_tail in H. Qed.

Local Ltac key_cases H :=
  repeat (apply elem_of_cons in H as [H|H]);
  [ | | | by apply elem_of_nil in H ].

Lemma registration_keys_NoDup (TYPE : string) :
  NoDup (spec_key <$> Header.QGST_REGISTER_EVENT_SUBCLASS TYPE).
Proof.
  rewrite registration_keys.
  repeat (apply NoDup_cons; split;
          [intros H; repeat (apply elem_of_cons in H as [H|H]; [discriminate H|]);
           by apply elem_of_nil in H|]).
  apply NoDup_nil_2.
Qed.

Lemma registration_keys_disjoint (T1 T2 : string) (k : string * string) :
  k ∈ spec_key <$> Header.QGST_REGISTER_EVENT_SUBCLASS T1 →
  k ∈ spec_key <$> Header.QGST_REGISTER_EVENT_SUBCLASS T2 →
  T1 = T2.
Proof.
  rewrite !registration_keys. intros H1 H2.
  key_cases H1; key_cases H2; subst k;
    apply pair_equal_spec in H2 as [Ht Ha]; try discriminate Ht;
    first [by apply class_name_inj | by apply pointer_name_inj].
Qed.

Lemma expand_cons (T : string) (Ts : list string) :
  expand (T :: Ts) = (Header.QGST_REGISTER_EVENT_SUBCLASS T ++ expand Ts)%list.
Proof. reflexivity. Qed.

Lemma elem_of_expand_keys (k : string * string) (Ts : list string) :
  k ∈ spec_key <$> expand Ts ↔
  ∃ T, T ∈ Ts ∧ k ∈ spec_key <$> Header.QGST_REGISTER_EVENT_SUBCLASS T.
Proof.
  induction Ts as [|T Ts IH].
  - split; [intros H; by apply elem_of_nil in H|].
    intros (T & HT & _). by apply elem_of_nil in HT.
  - rewrite expand_cons, fmap_app, elem_of_app, IH. split.
    + intros [H|(T' & HT' & H)]; [exists T | exists T']; split; try done.
      * apply list_elem_of_here.
      * by apply list_elem_of_further.
    + intros (T' & HT' & H). apply elem_of_cons in HT' as [->|HT'].
      * by left.
      * right. by exists T'.
Qed.

(** X2.  Registering a list of [TYPE]s specializes no template twice for the
    same argument exactly when no [TYPE] occurs twice in the list: distinct
    [TYPE]s never generate the same specialization, and a repeated [TYPE]
    always does.  The registrations of event.h specialize nothing twice. *)
Theorem no_specialization_twice (TYPEs : list string) :
  (NoDup (spec_key <$> expand TYPEs) ↔ NoDup TYPEs)
  ∧ NoDup (spec_key <$> Header.specializations).
Proof.
  assert (Hiff : ∀ Ts, NoDup (spec_key <$> expand Ts) ↔ NoDup Ts).
  { induction Ts as [|T Ts IH].
    - split; intros _; constructor.
    - rewrite expand_cons, fmap_app, NoDup_app, NoDup_cons, IH. split.
      + intros (_ & Hdis & Hts). split; [|done]. intros HT.
        apply (Hdis ("QGlib::Private::CanConvertTo", "QGst::" +:+ T +:+ "Event")).
        * rewrite registration_keys. apply list_elem_of_here.
        * apply elem_of_expand_keys. exists T. split; [done|].
          rewrite registration_keys. apply list_elem_of_here.
      + intros [HT Hts]. split; [apply registration_keys_NoDup|].
        split; [|done]. intros k Hk1 Hk2.
        apply elem_of_expand_keys in Hk2 as (T' & HT' & Hk2).
        by rewrite (registration_keys_disjoint _ _ _ Hk1 Hk2) in HT. }
  split; [apply Hiff|].
  change Header.specializations with (expand Header.registrations).
  apply Hiff. compute_done.
Qed.

(** ** Which subclass an instance converts to *)

Lemma subclass_for_EVTTYPE (C : EventSubclass) : subclass_for (EVTTYPE C) = Some C.
Proof. by destruct C. Qed.

Lemma subclass_for_Some (t : EventType) (C : EventSubclass) :
  subclass_for t = Some C ↔ t = EVTTYPE C.
Proof.
  split; [|intros ->; apply subclass_for_EVTTYPE].
  destruct t; try discriminate; intros [= <-]; reflexivity.
Qed.

Section GuardProperties.
Context `{X : Externals}.

(** X3.  For every instance pointer, the subclasses it converts to are: none
    when the type of the instance is not a [QGst::Event]; otherwise the one
    subclass registered with the type of the event, when there is one.  An
    event of type Tag, or of a type event.h does not name, converts to no
    subclass, and an event of a registered type converts to its subclass
    alone. *)
Theorem convertible_dispatch (p : instance_ptr) :
  convertible p
    = (if Type_isA (Type_fromInstance p) GetType_Event
       then option_list (subclass_for (Event_type (EventPtr_wrap p)))
       else [])
  ∧ (∀ C : EventSubclass, subclass_for (EVTTYPE C) = Some C)
  ∧ subclass_for EventTag = None
  ∧ (∀ raw : Z, subclass_for (EventOther raw) = None).
Proof.
  split; [|split; [apply subclass_for_EVTTYPE | split; [reflexivity | done]]].
  unfold convertible, CanConvertTo_from.
  destruct (Type_isA (Type_fromInstance p) GetType_Event); [|reflexivity].
  destruct (Event_type (EventPtr_wrap p)); reflexivity.
Qed.

(** X4.  When every instance whose type is-a [QGst::Event] really is a
    [GstEvent], [CanConvertTo<C>::from] reads the event type of events only:
    it has a result on every instance, the one of [CanConvertTo_from], and
    on an instance that is not a [GstEvent] that result is [false], where
    the comparison of the types alone has none. *)
Theorem guard_protects_cast (is_GstEvent : instance_ptr → bool) :
  (∀ p, Type_isA (Type_fromInstance p) GetType_Event = true →
        is_GstEvent p = true) →
  ∀ (C : EventSubclass) (p : instance_ptr),
    CanConvertTo_from_guarded is_GstEvent C p = Some (CanConvertTo_from C p)
    ∧ (is_GstEvent p = false →
       CanConvertTo_from_guarded is_GstEvent C p = Some false
       ∧ type_matches_unguarded is_GstEvent C p = None).
Proof.
  intros Hguard C p.
  unfold CanConvertTo_from_guarded, CanConvertTo_from, type_matches_unguarded.
  specialize (Hguard p).
  destruct (Type_isA (Type_fromInstance p) GetType_Event).
  - rewrite Hguard by done. split; [done|]. discriminate.
  - split; [done|]. by intros ->.
Qed.

End GuardProperties.

(** In [Sample], the events are the objects of [Sample.heap2]; address 5
    holds none. *)
Lemma guard_protects_cast_witness :
  let is_GstEvent := λ p : positive, bool_decide (is_Some (Sample.heap2 !! p)) in
  (∀ p, Type_isA (Externals := Sample.externals)
          (Type_fromInstance p) GetType_Event = true →
        is_GstEvent p = true)
  ∧ CanConvertTo_from_guarded (X := Sample.externals) is_GstEvent SeekEvent 5%positive
    = Some false
  ∧ type_matches_unguarded (X := Sample.externals) is_GstEvent SeekEvent 5%positive
    = None
  ∧ CanConvertTo_from_guarded (X := Sample.externals) is_GstEvent SeekEvent Sample.seek
    = Some true.
Proof.
  intros is_GstEvent.
  assert (Hguard : ∀ p, Type_isA (Externals := Sample.externals)
                          (Type_fromInstance p) GetType_Event = true →
                        is_GstEvent p = true).
  { intros p. unfold is_GstEvent.
    change (Type_fromInstance (Externals := Sample.externals) p)
      with (match Sample.heap2 !! (p : positive) with
            | Some _ => ["GstEvent"; "GstMiniObject"]
            | None => ["GstBuffer"; "GstMiniObject"]
            end).
    destruct (Sample.heap2 !! (p : positive)) eqn:E.
    - intros _. apply bool_decide_eq_true. by eexists.
    - intros H. vm_compute in H. discriminate H. }
  split; [exact Hguard|].
  destruct (guard_protects_cast (X := Sample.externals) is_GstEvent Hguard
              SeekEvent 5%positive) as [_ H5].
  assert (H5' : is_GstEvent 5%positive = false) by (vm_compute; reflexivity).
  destruct (H5 H5') as [Hg Hu].
  split; [exact Hg|]. split; [exact Hu|].
  destruct (guard_protects_cast (X := Sample.externals) is_GstEvent Hguard
              SeekEvent Sample.seek) as [Hs _].
  rewrite Hs. vm_compute. reflexivity.
Defined.

(** ** Name lookup in the subclasses *)

Lemma resolve_undeclared (fuel : nat) (name m : string) :
  Forall (λ c, declares c m = false) Header.classes →
  resolve fuel name m = None.
Proof.
  intros Hnone. revert name.
  induction fuel as [|fuel IH]; intros name; [reflexivity|].
  simpl. destruct (Header.find_class name) as [c|] eqn:E; [|reflexivity].
  apply find_some in E as [Hin _].
  rewrite Forall_forall in Hnone.
  rewrite (Hnone c) by (by apply list_elem_of_In).
  apply IH.
Qed.

(** X5.  In every subclass, [create] names the subclass's own [create], which
    hides [Event::create]; every other member function of [Event] named on
    a subclass is [Event]'s, except [timestamp] on [QosEvent], which names
    [QosEvent::timestamp]; and each name a subclass declares names its own
    member.  A name no class of event.h declares is not found in it,
    whatever the class the search starts from. *)
Theorem subclass_name_lookup (C : EventSubclass) :
  let cls := TYPE_of C +:+ "Event" in
  resolve 3 cls "create" = Some cls
  ∧ Forall (λ m, resolve 3 cls m
                 = Some (if bool_decide (C = QosEvent ∧ m = "timestamp")
                         then cls else "Event"))
      (Header.cls_public Header.Event_decl ++ Header.cls_protected Header.Event_decl)
  ∧ (∀ c, Header.find_class cls = Some c →
          Forall (λ m, resolve 3 cls m = Some cls) (Header.cls_public c))
  ∧ resolve 3 cls "seqnum" = None
  ∧ (∀ (fuel : nat) (name m : string),
       Forall (λ c, declares c m = false) Header.classes →
       resolve fuel name m = None).
Proof.
  destruct C; cbn zeta;
    (split; [reflexivity|]; split; [compute_done|];
     split; [intros c [= <-]; compute_done|];
     split; [reflexivity|]; intros fuel name m Hnone;
     by apply resolve_undeclared).
Qed.

(** ** Constructors and accessors, by signature *)

Lemma signatures_agree :
  Forall2 (λ d c, d = Signatures.to_decl (Header.cls_wrapper d) c)
    Header.classes Signatures.classes.
Proof. repeat (constructor; [reflexivity|]). constructor. Qed.

(** X6.  In every subclass but [NavigationEvent], the public member functions
    are as many as the parameters of [create] and correspond to them in
    order: each is a [const] member without parameters that returns, by
    value, the type of its parameter (without [const] and [&]).  The names
    agree too, but for [update]/[isUpdate] in [NewSegmentEvent] and
    [msg]/[message] in [SinkMessageEvent].  [NavigationEvent] has one
    parameter and declares no member function. *)
Theorem accessors_follow_create_parameters :
  Forall (λ c,
      Signatures.cs_base c = "Event" →
      (Signatures.cs_name c = "NavigationEvent"
       ∧ length (Signatures.create_params c) = 1%nat
       ∧ Signatures.members c = [])
      ∨ (Signatures.cs_name c ≠ "NavigationEvent"
         ∧ length (Signatures.create_params c) = length (Signatures.members c)
         ∧ Forall (λ pm,
               Signatures.is_accessor pm.2 = true
               ∧ Signatures.m_return pm.2
                 = Signatures.decay (Signatures.par_type pm.1))
             (Signatures.pairing c)))
    Signatures.classes
  ∧ (c ← Signatures.classes;
     (λ pm, (Signatures.cs_name c, Signatures.par_name pm.1, Signatures.m_name pm.2))
       <$> filter (λ pm, Signatures.par_name pm.1 ≠ Signatures.m_name pm.2)
             (if bool_decide (Signatures.cs_base c = "Event")
              then Signatures.pairing c else []))
    = [ ("NewSegmentEvent", "update", "isUpdate");
        ("SinkMessageEvent", "msg", "message") ].
Proof. split; [compute_done | reflexivity]. Qed.

(** X7.  The only public member functions of event.h that are neither static
    nor [const] are [Event::structure()], in its overload that is not
    [const], and [Event::setSequenceNumber]: no subclass declares a member
    function that changes the event. *)
Theorem only_Event_mutates :
  Signatures.mutators = [("Event", "structure"); ("Event", "setSequenceNumber")]
  ∧ Forall (λ c, Signatures.cs_base c = "Event" →
                 Forall (λ m, Signatures.m_const m = true) (Signatures.members c))
      Signatures.classes.
Proof. split; [reflexivity | compute_done]. Qed.

(** X8.  Every class of event.h has exactly one static member function,
    [create], which returns by value the handle type named after the class
    ([EventPtr], [SeekEventPtr], ...).  The only default arguments are the
    ones of the [structure] parameter of [Event::create] and of
    [NavigationEvent::create], both [SharedStructure(NULL)], and the
    [create] of FlushStart, FlushStop and Eos takes no argument. *)
Theorem create_signatures :
  Forall (λ c,
      ∃ params,
        Signatures.statics c
        = [Signatures.static_create (Signatures.cs_name c +:+ "Ptr") params])
    Signatures.classes
  ∧ Signatures.defaults
    = [ ("Event", "create", "structure", "SharedStructure(NULL)");
        ("NavigationEvent", "create", "structure", "SharedStructure(NULL)") ]
  ∧ Signatures.cs_name
      <$> filter (λ c, Signatures.create_params c = []) Signatures.classes
    = ["FlushStartEvent"; "FlushStopEvent"; "EosEvent"].
Proof.
  split; [|split; reflexivity].
  unfold Signatures.classes.
  repeat (apply Forall_cons; split; [eexists; reflexivity|]).
  apply Forall_nil_2.
Qed.
